(** * serve.py: a development file server with CORS and module MIME types

    The program subclasses [http.server.SimpleHTTPRequestHandler], overrides
    [end_headers] and adds [do_OPTIONS], and runs the handler class under a
    [socketserver.TCPServer] on port 8000 until it is interrupted.

    The embedding has three layers:
    - the Python string operations the handler uses ([Py]);
    - the handler object and the methods of [serve.py], together with the
      methods of the two base classes they call or are called from (CPython
      3.11, [http/server.py]): calls to [self.end_headers] inside the base
      classes are late-bound, so the base-class methods take the method as a
      section variable;
    - the [__main__] block: the process as a state record, the operating
      system's answers (bind result, events) as inputs.

    A request is the parsed request line of an HTTP/1.x request: the
    [command] and [path] attributes as [parse_request] leaves them.  Logging
    to standard error by [log_request] is not part of the state. *)

From Stdlib Require Import String Ascii List Bool Arith DecimalString.
Import ListNotations.
Local Open Scope string_scope.
Local Open Scope bool_scope.

(* ================================================================== *)
(** ** Python string operations *)

Module Py.

(** [s.endswith(suffix)]: some tail of [s] is [suffix]. *)
Fixpoint endswith (s suffix : string) : bool :=
  (s =? suffix) ||
  match s with
  | EmptyString => false
  | String _ t => endswith t suffix
  end.

(** [str.lower] on one character of the ASCII range. *)
Definition lower_ascii (c : ascii) : ascii :=
  let n := nat_of_ascii c in
  if ((65 <=? n)%nat && (n <=? 90)%nat) then ascii_of_nat (n + 32) else c.

Fixpoint lower (s : string) : string :=
  match s with
  | EmptyString => EmptyString
  | String c t => String (lower_ascii c) (lower t)
  end.

(** [str(n)] for a non-negative integer. *)
Definition str (n : nat) : string :=
  NilEmpty.string_of_uint (Nat.to_uint n).

(** [repr(s)] for a string without quotes or escapes. *)
Definition repr (s : string) : string := "'" ++ s ++ "'".

End Py.

(* ================================================================== *)
(** ** The handler object *)

(** What is put in the header buffer and written to the client.  A status
    line is encoded as [HTTP/1.0 code message CRLF], a header as
    [keyword: value CRLF], the end of the headers as [CRLF]. *)
Inductive item : Type :=
| StatusLine (code : nat) (message : string)
| Header (keyword value : string)
| EndOfHeaders
| Data (bytes : string).

Record handler : Type := mkHandler {
  command : string;                 (* self.command *)
  path : string;                    (* self.path: the request target *)
  directory : string;               (* self.directory *)
  version_string : string;          (* self.version_string() *)
  date_time_string : string;        (* self.date_time_string() *)
  error_message_format : nat -> string -> string -> string;
  _headers_buffer : list item;      (* self._headers_buffer *)
  wfile : list item;                (* what self.wfile has received *)
  close_connection : bool;          (* self.close_connection *)
  fs_log : list (string * string)   (* file-system look-ups made: root, target *)
}.

Definition set_buffer (b : list item) (self : handler) : handler :=
  mkHandler (command self) (path self) (directory self) (version_string self)
    (date_time_string self) (error_message_format self) b (wfile self)
    (close_connection self) (fs_log self).

Definition set_wfile (w : list item) (self : handler) : handler :=
  mkHandler (command self) (path self) (directory self) (version_string self)
    (date_time_string self) (error_message_format self) (_headers_buffer self) w
    (close_connection self) (fs_log self).

Definition set_close_connection (c : bool) (self : handler) : handler :=
  mkHandler (command self) (path self) (directory self) (version_string self)
    (date_time_string self) (error_message_format self) (_headers_buffer self)
    (wfile self) c (fs_log self).

Definition set_fs_log (l : list (string * string)) (self : handler) : handler :=
  mkHandler (command self) (path self) (directory self) (version_string self)
    (date_time_string self) (error_message_format self) (_headers_buffer self)
    (wfile self) (close_connection self) l.

(* ================================================================== *)
(** ** BaseHTTPRequestHandler (http/server.py) *)

(** [self.responses]: short and long message of the status codes in use. *)
Definition responses (code : nat) : option (string * string) :=
  match code with
  | 200 => Some ("OK", "Request fulfilled, document follows")
  | 301 => Some ("Moved Permanently", "Object moved permanently -- see URI list")
  | 304 => Some ("Not Modified", "Document has not changed since given time")
  | 404 => Some ("Not Found", "Nothing matches the given URI")
  | 501 => Some ("Not Implemented", "Server does not support this operation")
  | _ => None
  end.

Definition send_response_only (code : nat) (message : option string)
    (self : handler) : handler :=
  let message :=
    match message with
    | Some m => m
    | None => match responses code with Some (short, _) => short | None => "" end
    end in
  set_buffer (_headers_buffer self ++ [StatusLine code message]) self.

Definition send_header (keyword value : string) (self : handler) : handler :=
  let self := set_buffer (_headers_buffer self ++ [Header keyword value]) self in
  if Py.lower keyword =? "connection" then
    if Py.lower value =? "close" then set_close_connection true self
    else if Py.lower value =? "keep-alive" then set_close_connection false self
    else self
  else self.

Definition send_response (code : nat) (message : option string)
    (self : handler) : handler :=
  let self := send_response_only code message self in
  let self := send_header "Server" (version_string self) self in
  send_header "Date" (date_time_string self) self.

Definition flush_headers (self : handler) : handler :=
  set_buffer [] (set_wfile (wfile self ++ _headers_buffer self) self).

(** [BaseHTTPRequestHandler.end_headers], reached from [serve.py] as
    [super().end_headers()]. *)
Definition Base_end_headers (self : handler) : handler :=
  flush_headers (set_buffer (_headers_buffer self ++ [EndOfHeaders]) self).

Definition wfile_write (bytes : string) (self : handler) : handler :=
  set_wfile (wfile self ++ [Data bytes]) self.

(** The file system as [send_head] observes it for a serving root and a
    request target: [translate_path], [os.path.isdir], the index files,
    [guess_type], [open], [os.fstat] and the If-Modified-Since test. *)
Inductive fs_entry : Type :=
| DirectoryNoSlash (new_url : string)
| DirectoryListing (encoded : option string)
| NoSuchFile
| NotModified
| RegularFile (ctype : string) (content : string) (last_modified : string).

Definition filesystem : Type := string -> string -> fs_entry.

Section LateBound.

(** [self.end_headers], looked up on the class of the instance. *)
Variable self_end_headers : handler -> handler.

Definition send_error (code : nat) (message : option string)
    (self : handler) : handler :=
  let '(shortmsg, longmsg) :=
    match responses code with Some sl => sl | None => ("???", "???") end in
  let message := match message with Some m => m | None => shortmsg end in
  let explain := longmsg in
  let self := send_response code (Some message) self in
  let self := send_header "Connection" "close" self in
  let body :=
    if (200 <=? code)%nat && negb ((code =? 204)%nat || (code =? 205)%nat || (code =? 304)%nat)
    then Some (error_message_format self code message explain)
    else None in
  let self :=
    match body with
    | Some b =>
        let self := send_header "Content-Type" "text/html;charset=utf-8" self in
        send_header "Content-Length" (Py.str (String.length b)) self
    | None => self
    end in
  let self := self_end_headers self in
  match body with
  | Some b =>
      if negb (command self =? "HEAD") && negb (b =? "") then wfile_write b self
      else self
  | None => self
  end.

(** [SimpleHTTPRequestHandler.send_head]; the result is the open file, if
    any, and the handler. *)
Definition send_head (fs : filesystem) (self : handler)
    : option string * handler :=
  let entry := fs (directory self) (path self) in
  let self := set_fs_log (fs_log self ++ [(directory self, path self)]) self in
  match entry with
  | DirectoryNoSlash new_url =>
      let self := send_response 301 None self in
      let self := send_header "Location" new_url self in
      let self := send_header "Content-Length" "0" self in
      (None, self_end_headers self)
  | DirectoryListing None =>
      (None, send_error 404 (Some "No permission to list directory") self)
  | DirectoryListing (Some encoded) =>
      let self := send_response 200 None self in
      let self := send_header "Content-type" "text/html; charset=utf-8" self in
      let self := send_header "Content-Length" (Py.str (String.length encoded)) self in
      (Some encoded, self_end_headers self)
  | NoSuchFile =>
      (None, send_error 404 (Some "File not found") self)
  | NotModified =>
      let self := send_response 304 None self in
      (None, self_end_headers self)
  | RegularFile ctype content last_modified =>
      let self := send_response 200 None self in
      let self := send_header "Content-type" ctype self in
      let self := send_header "Content-Length" (Py.str (String.length content)) self in
      let self := send_header "Last-Modified" last_modified self in
      (Some content, self_end_headers self)
  end.

Definition do_GET (fs : filesystem) (self : handler) : handler :=
  let '(f, self) := send_head fs self in
  match f with
  | Some content => wfile_write content self
  | None => self
  end.

Definition do_HEAD (fs : filesystem) (self : handler) : handler :=
  snd (send_head fs self).

End LateBound.

(* ================================================================== *)
(** ** MyHTTPRequestHandler (serve.py) *)

Definition end_headers (self : handler) : handler :=
  (* Add CORS headers for local development *)
  let self := send_header "Access-Control-Allow-Origin" "*" self in
  let self := send_header "Access-Control-Allow-Methods" "GET, POST, OPTIONS" self in
  let self := send_header "Access-Control-Allow-Headers" "Content-Type" self in
  (* Set proper MIME types for ES6 modules *)
  let self :=
    if Py.endswith (path self) ".js" || Py.endswith (path self) ".jsx" then
      send_header "Content-Type" "application/javascript; charset=utf-8" self
    else if Py.endswith (path self) ".json" then
      send_header "Content-Type" "application/json; charset=utf-8" self
    else self in
  Base_end_headers self.

Definition do_OPTIONS (self : handler) : handler :=
  let self := send_response 200 None self in
  end_headers self.

(** [handle_one_request] on an instance of [MyHTTPRequestHandler]: the
    class has [do_GET] and [do_HEAD] (inherited) and [do_OPTIONS]. *)
Definition handle_one_request (fs : filesystem) (self : handler) : handler :=
  if command self =? "GET" then do_GET end_headers fs self
  else if command self =? "HEAD" then do_HEAD end_headers fs self
  else if command self =? "OPTIONS" then do_OPTIONS self
  else
    send_error end_headers 501
      (Some ("Unsupported method (" ++ Py.repr (command self) ++ ")")) self.

(** The same dispatch on a plain [SimpleHTTPRequestHandler], which has no
    [do_OPTIONS] and the base [end_headers]. *)
Definition Simple_handle_one_request (fs : filesystem) (self : handler) : handler :=
  if command self =? "GET" then do_GET Base_end_headers fs self
  else if command self =? "HEAD" then do_HEAD Base_end_headers fs self
  else
    send_error Base_end_headers 501
      (Some ("Unsupported method (" ++ Py.repr (command self) ++ ")")) self.

(** A request line and the attributes of the handler class. *)
Record request : Type := mkRequest {
  req_command : string;
  req_path : string
}.

Record handler_class : Type := mkClass {
  cls_directory : string;
  cls_version_string : string;
  cls_date_time_string : string;
  cls_error_message_format : nat -> string -> string -> string
}.

(** The handler as [parse_request] leaves it, before the method runs. *)
Definition setup (c : handler_class) (r : request) : handler :=
  mkHandler (req_command r) (req_path r) (cls_directory c) (cls_version_string c)
    (cls_date_time_string c) (cls_error_message_format c) [] [] true [].

(* ================================================================== *)
(** ** The response as the client reads it *)

Record response : Type := mkResponse {
  status : nat;
  reason : string;
  headers : list (string * string);
  body : string
}.

Fixpoint read_headers (w : list item)
    : option (list (string * string) * list item) :=
  match w with
  | Header k v :: rest =>
      match read_headers rest with
      | Some (hs, tl) => Some ((k, v) :: hs, tl)
      | None => None
      end
  | EndOfHeaders :: rest => Some ([], rest)
  | _ => None
  end.

Fixpoint read_body (w : list item) : option string :=
  match w with
  | [] => Some ""
  | Data b :: rest =>
      match read_body rest with
      | Some b' => Some (b ++ b')
      | None => None
      end
  | _ => None
  end.

Definition read_response (w : list item) : option response :=
  match w with
  | StatusLine code message :: rest =>
      match read_headers rest with
      | Some (hs, tl) =>
          match read_body tl with
          | Some b => Some (mkResponse code message hs b)
          | None => None
          end
      | None => None
      end
  | _ => None
  end.

(** All values of a header; header names compare without case. *)
Definition get_all (name : string) (hs : list (string * string)) : list string :=
  map snd (filter (fun kv => Py.lower (fst kv) =? Py.lower name) hs).

Definition CORS : list (string * string) :=
  [ ("Access-Control-Allow-Origin", "*");
    ("Access-Control-Allow-Methods", "GET, POST, OPTIONS");
    ("Access-Control-Allow-Headers", "Content-Type") ].

Definition serve (c : handler_class) (fs : filesystem) (r : request)
    : option response :=
  read_response (wfile (handle_one_request fs (setup c r))).

(* ================================================================== *)
(** ** The __main__ block (serve.py) over socketserver.TCPServer *)

#[local] Set Warnings "-abstract-large-number".

Definition PORT : nat := 8000.

Inductive socket_state : Type :=
| Unopened
| Listening
| Closed.

Inductive exn : Type :=
| OSError (strerror : string)
| KeyboardInterrupt.

(** The process and what it has done so far. *)
Record process : Type := mkProcess {
  argv : list string;                      (* sys.argv *)
  cwd : string;                            (* os.getcwd() *)
  server_address : option (string * nat);  (* httpd.server_address *)
  socket : socket_state;                   (* httpd.socket *)
  bind_calls : nat;                        (* calls of server_bind *)
  stdout : list string;                    (* one entry per print *)
  stderr : list string;
  replies : list (list item);              (* bytes sent, per connection *)
  fs_calls : list (string * string);       (* file-system look-ups: root, target *)
  exit_status : option nat                 (* None while the process runs *)
}.

Definition set_cwd (d : string) (p : process) : process :=
  mkProcess (argv p) d (server_address p) (socket p) (bind_calls p) (stdout p)
    (stderr p) (replies p) (fs_calls p) (exit_status p).

Definition set_socket (a : option (string * nat)) (s : socket_state) (n : nat)
    (p : process) : process :=
  mkProcess (argv p) (cwd p) a s n (stdout p) (stderr p) (replies p)
    (fs_calls p) (exit_status p).

Definition print (line : string) (p : process) : process :=
  mkProcess (argv p) (cwd p) (server_address p) (socket p) (bind_calls p)
    (stdout p ++ [line]) (stderr p) (replies p) (fs_calls p) (exit_status p).

Definition add_reply (h : handler) (p : process) : process :=
  mkProcess (argv p) (cwd p) (server_address p) (socket p) (bind_calls p)
    (stdout p) (stderr p) (replies p ++ [wfile h]) (fs_calls p ++ fs_log h)
    (exit_status p).

Definition exit (code : nat) (err : list string) (p : process) : process :=
  mkProcess (argv p) (cwd p) (server_address p) (socket p) (bind_calls p)
    (stdout p) (stderr p ++ err) (replies p) (fs_calls p) (Some code).

(** What the machine answers: whether [bind] on a port fails and with which
    message, the files, and the class attributes of the handler. *)
Record machine : Type := mkMachine {
  bind_error : nat -> option string;
  files : filesystem;
  m_version_string : string;
  m_date_time_string : string;
  m_error_message_format : nat -> string -> string -> string
}.

Inductive input : Type :=
| Connection (r : request)
| Chdir (d : string).

Inductive event : Type :=
| Input (i : input)
| SIGINT.

Inductive outcome : Type :=
| Returned (p : process)
| Raised (e : exn) (p : process)
| Running (p : process).

(** [TCPServer.server_close]. *)
Definition server_close (p : process) : process :=
  set_socket (server_address p) Closed (bind_calls p) p.

(** [TCPServer.__init__] with [bind_and_activate=True]: a bind failure closes
    the socket and raises again. *)
Definition TCPServer (m : machine) (address : string * nat) (p : process)
    : outcome :=
  let p := set_socket (Some address) Unopened (S (bind_calls p)) p in
  match bind_error m (snd address) with
  | Some strerror => Raised (OSError strerror) (server_close p)
  | None => Returned (set_socket (Some address) Listening (bind_calls p) p)
  end.

(** [MyHTTPRequestHandler(request, ..., directory=d)]: the constructor of
    [SimpleHTTPRequestHandler] takes [os.getcwd()] only when no directory is
    given. *)
Definition MyHTTPRequestHandler (m : machine) (d : option string)
    (p : process) (r : request) : handler :=
  let d := match d with Some d => d | None => cwd p end in
  setup (mkClass d (m_version_string m) (m_date_time_string m)
           (m_error_message_format m)) r.

(** [serve_forever] over the events the process receives; it leaves the loop
    only by an exception. *)
Fixpoint serve_forever (m : machine) (Handler : process -> request -> handler)
    (events : list event) (p : process) : outcome :=
  match events with
  | [] => Running p
  | SIGINT :: _ => Raised KeyboardInterrupt p
  | Input (Chdir d) :: rest => serve_forever m Handler rest (set_cwd d p)
  | Input (Connection r) :: rest =>
      let h := handle_one_request (files m) (Handler p r) in
      serve_forever m Handler rest (add_reply h p)
  end.

Definition banner (port : nat) : string :=
  "
╔════════════════════════════════════════════════════════════════╗
║                                                                ║
║       🔬 Forensic Legal Analyzer v2.0 - Development Server    ║
║                                                                ║
╚════════════════════════════════════════════════════════════════╝

Server running at: http://localhost:" ++ Py.str port ++ "

📖 Available endpoints:
   • http://localhost:" ++ Py.str port ++ "/index-modular.html  (Modular Version)
   • http://localhost:" ++ Py.str port ++ "/index.html          (Original Version)

📁 Module locations:
   • /src/main.jsx              (Main Application)
   • /src/analyzers/            (Analysis Engines)
   • /src/storage/              (Data Storage)
   • /src/utils/                (Utilities)
   • /src/data/                 (Statute Database)

🛠️  Development tips:
   • Open browser DevTools to see module loading
   • Check Network tab for ES6 module imports
   • Console shows initialization progress
   • Modules are cached by browser

Press Ctrl+C to stop the server
        ".

Definition stopped : string := "

✅ Server stopped".

(** The interpreter at the end of the script: status 0, or a traceback and
    status 1 for an exception nobody caught. *)
Definition interpreter_exit (o : outcome) : process :=
  match o with
  | Returned p => exit 0 [] p
  | Raised (OSError strerror) p =>
      exit 1 ["Traceback (most recent call last):"; "OSError: " ++ strerror] p
  | Raised KeyboardInterrupt p =>
      exit 1 ["Traceback (most recent call last):"; "KeyboardInterrupt"] p
  | Running p => p
  end.

Definition main (m : machine) (events : list event) (p : process) : process :=
  let directory := cwd p in
  let Handler := MyHTTPRequestHandler m (Some directory) in
  interpreter_exit
    match TCPServer m ("", PORT) p with
    | Returned httpd =>
        let httpd := print (banner PORT) httpd in
        let o :=
          match serve_forever m Handler events httpd with
          | Raised KeyboardInterrupt httpd => Returned (print stopped httpd)
          | o => o
          end in
        (* TCPServer.__exit__ *)
        match o with
        | Returned httpd => Returned (server_close httpd)
        | Raised e httpd => Raised e (server_close httpd)
        | Running httpd => Running httpd
        end
    | o => o
    end.

(* ================================================================== *)
(** ** Definitions used to state and prove the properties *)

Definition JS_TYPE : string := "application/javascript; charset=utf-8".
Definition JSON_TYPE : string := "application/json; charset=utf-8".

(** The headers [end_headers] of [serve.py] sends for a request target. *)
Definition hook_headers (target : string) : list (string * string) :=
  CORS ++
  (if Py.endswith target ".js" || Py.endswith target ".jsx" then [("Content-Type", JS_TYPE)]
   else if Py.endswith target ".json" then [("Content-Type", JSON_TYPE)]
   else []).

Definition hdr (kv : string * string) : item := Header (fst kv) (snd kv).

(** An [end_headers] that buffers the headers [X] and then does what the
    base class does. *)
Definition ends_with (X : string -> list (string * string))
    (E : handler -> handler) : Prop :=
  forall self,
    E self =
    flush_headers
      (set_buffer (_headers_buffer self ++ map hdr (X (path self)) ++ [EndOfHeaders]) self).

(** Header names the base classes send. *)
Definition base_keys : list string :=
  ["Server"; "Date"; "Connection"; "Content-Type"; "Content-type";
   "Content-Length"; "Location"; "Last-Modified"].

Definition base_key (kv : string * string) : Prop := In (fst kv) base_keys.

Definition reply (code : nat) (message : string) (hs : list (string * string))
    (chunks : list string) : list item :=
  StatusLine code message :: map hdr hs ++ EndOfHeaders :: map Data chunks.

Definition explain (code : nat) : string :=
  match responses code with Some (_, long) => long | None => "???" end.

Definition join (chunks : list string) : string := fold_right append "" chunks.

Definition Simple_serve (c : handler_class) (fs : filesystem) (r : request)
    : option response :=
  read_response (wfile (Simple_handle_one_request fs (setup c r))).

Definition serves_file (cmd : string) : bool := (cmd =? "GET") || (cmd =? "HEAD").

Definition proc (o : outcome) : process :=
  match o with
  | Returned p => p
  | Raised _ p => p
  | Running p => p
  end.

(** What the serving loop leaves alone, and what it adds. *)
Definition same_server (p q : process) : Prop :=
  server_address q = server_address p /\ socket q = socket p /\
  bind_calls q = bind_calls p /\ stdout q = stdout p /\
  stderr q = stderr p /\ exit_status q = exit_status p.

(** The requests among the inputs, in order. *)
Fixpoint connections (inputs : list input) : list request :=
  match inputs with
  | [] => []
  | Connection r :: rest => r :: connections rest
  | Chdir _ :: rest => connections rest
  end.

(* ================================================================== *)
(** ** Sample inputs *)

Definition sample_class : handler_class :=
  mkClass "/srv" "SimpleHTTP/0.6 Python/3.11.2" "Wed, 04 Nov 2026 10:00:00 GMT"
    (fun code message explain => Py.str code ++ " " ++ message ++ ": " ++ explain).

Definition sample_files : filesystem :=
  fun root target =>
    if target =? "/app.js" then RegularFile "text/javascript" "export {};" "Tue, 03 Nov 2026 09:00:00 GMT"
    else if target =? "/data.json" then RegularFile "application/json" "{}" "Tue, 03 Nov 2026 09:00:00 GMT"
    else if target =? "/index.html" then RegularFile "text/html" "<html></html>" "Tue, 03 Nov 2026 09:00:00 GMT"
    else if target =? "/src" then DirectoryNoSlash "/src/"
    else NoSuchFile.

Definition sample_machine (port_free : bool) : machine :=
  mkMachine
    (fun _ => if port_free then None else Some "[Errno 98] Address already in use")
    sample_files "SimpleHTTP/0.6 Python/3.11.2" "Wed, 04 Nov 2026 10:00:00 GMT"
    (fun code message explain => Py.str code ++ " " ++ message ++ ": " ++ explain).

Definition sample_process : process :=
  mkProcess ["serve.py"] "/srv" None Unopened 0 [] [] [] [] None.

(* ================================================================== *)
(** ** Facts about [endswith] and [lower] *)








(* ================================================================== *)
(** ** The header hook in closed form *)

Lemma Base_end_headers_ends : ends_with (fun _ => []) Base_end_headers.
Proof. intros self. reflexivity. Qed.

Lemma path_send_header k v self : path (send_header k v self) = path self.
Proof.
  unfold send_header.
  destruct (Py.lower k =? "connection"); [|reflexivity].
  destruct (Py.lower v =? "close"); [reflexivity|].
  destruct (Py.lower v =? "keep-alive"); reflexivity.
Qed.

Lemma end_headers_ends : ends_with hook_headers end_headers.
Proof.
  intros self. unfold end_headers, hook_headers.
  rewrite !path_send_header.
  destruct (Py.endswith (path self) ".js" || Py.endswith (path self) ".jsx");
    [|destruct (Py.endswith (path self) ".json")];
    destruct self as [cmd p d v t f b w cc l];
    cbv -[app]; rewrite <- !app_assoc; reflexivity.
Qed.

(* ================================================================== *)
(** ** The shape of every reply *)

Ltac list_norm :=
  repeat first [rewrite <- app_assoc | rewrite map_app]; cbn [app map].

Ltac base_keys_tac :=
  repeat (apply Forall_cons; [unfold base_key, base_keys; cbn [fst In]; auto 10|]);
  apply Forall_nil.

Lemma send_error_shape code m cmd p d v t f l :
  code = 404 \/ code = 501 ->
  exists pre chunks,
    Forall base_key pre /\
    forall X E, ends_with X E ->
      wfile (send_error E code (Some m) (mkHandler cmd p d v t f [] [] true l)) =
        reply code m (pre ++ X p) chunks.
Proof.
  intros Hc.
  exists [("Server", v); ("Date", t); ("Connection", "close");
          ("Content-Type", "text/html;charset=utf-8");
          ("Content-Length", Py.str (String.length (f code m (explain code))))],
         (if negb (cmd =? "HEAD") && negb (f code m (explain code) =? "")
          then [f code m (explain code)] else []).
  split; [base_keys_tac|].
  intros X E HE.
  destruct Hc; subst code.
  all: unfold send_error; cbv zeta; cbv iota beta delta [responses]; rewrite HE;
    cbv -[app map];
    match goal with |- context [if ?c then _ else _] => destruct c end;
    list_norm; reflexivity.
Qed.

Ltac run_with HE :=
  cbv zeta; cbv iota beta; rewrite HE; cbv -[app map]; list_norm; reflexivity.

Lemma send_head_shape c fs r :
  exists code msg pre body body',
    Forall base_key pre /\
    forall X E, ends_with X E ->
      wfile (do_GET E fs (setup c r)) =
        reply code msg (pre ++ X (req_path r)) body /\
      wfile (do_HEAD E fs (setup c r)) =
        reply code msg (pre ++ X (req_path r)) body'.
Proof.
  destruct c as [d v t f], r as [cmd p].
  unfold do_GET, do_HEAD, send_head, setup.
  cbn [directory path req_command req_path cls_directory cls_version_string
       cls_date_time_string cls_error_message_format].
  unfold set_fs_log.
  cbn [command path directory version_string date_time_string
       error_message_format _headers_buffer wfile close_connection fs_log app].
  destruct (fs d p) as [url|[enc|]| | |ctype content lm].
  - exists 301, "Moved Permanently",
      [("Server", v); ("Date", t); ("Location", url); ("Content-Length", "0")], [], [].
    split; [base_keys_tac|]. intros X E HE. split; run_with HE.
  - exists 200, "OK",
      [("Server", v); ("Date", t); ("Content-type", "text/html; charset=utf-8");
       ("Content-Length", Py.str (String.length enc))], [enc], [].
    split; [base_keys_tac|]. intros X E HE. split; run_with HE.
  - destruct (send_error_shape 404 "No permission to list directory" cmd p d v t f [(d, p)])
      as (pre & body & Hp & Hs); [now left|].
    exists 404, "No permission to list directory", pre, body, body.
    split; [exact Hp|]. intros X E HE. cbv iota beta. cbn [snd].
    split; now apply Hs.
  - destruct (send_error_shape 404 "File not found" cmd p d v t f [(d, p)])
      as (pre & body & Hp & Hs); [now left|].
    exists 404, "File not found", pre, body, body.
    split; [exact Hp|]. intros X E HE. cbv iota beta. cbn [snd].
    split; now apply Hs.
  - exists 304, "Not Modified", [("Server", v); ("Date", t)], [], [].
    split; [base_keys_tac|]. intros X E HE. split; run_with HE.
  - exists 200, "OK",
      [("Server", v); ("Date", t); ("Content-type", ctype);
       ("Content-Length", Py.str (String.length content)); ("Last-Modified", lm)],
      [content], [].
    split; [base_keys_tac|]. intros X E HE. split; run_with HE.
Qed.

Lemma append_empty_r (s : string) : s ++ "" = s.
Proof. induction s as [|a s IH]; cbn; [reflexivity | now rewrite IH]. Qed.

Lemma read_headers_app hs tl :
  read_headers (map hdr hs ++ EndOfHeaders :: tl) = Some (hs, tl).
Proof.
  induction hs as [|[k v] hs IH]; cbn; [reflexivity|].
  cbn in IH. now rewrite IH.
Qed.

Lemma read_body_chunks chunks : read_body (map Data chunks) = Some (join chunks).
Proof.
  induction chunks as [|b chunks IH]; cbn; [reflexivity|].
  now rewrite IH.
Qed.

Lemma read_reply code msg hs chunks :
  read_response (reply code msg hs chunks) = Some (mkResponse code msg hs (join chunks)).
Proof.
  unfold reply, read_response.
  now rewrite read_headers_app, read_body_chunks.
Qed.

Lemma do_OPTIONS_shape c r :
  wfile (do_OPTIONS (setup c r)) =
    reply 200 "OK"
      ([("Server", cls_version_string c); ("Date", cls_date_time_string c)]
         ++ hook_headers (req_path r)) []
  /\ fs_log (do_OPTIONS (setup c r)) = [].
Proof.
  destruct c as [d v t f], r as [cmd p].
  unfold do_OPTIONS. rewrite end_headers_ends.
  split; cbv -[app map hook_headers]; list_norm; reflexivity.
Qed.

Lemma handle_shape c fs r :
  exists code msg pre chunks,
    Forall base_key pre /\
    wfile (handle_one_request fs (setup c r)) =
      reply code msg (pre ++ hook_headers (req_path r)) chunks /\
    (req_command r <> "OPTIONS" ->
     wfile (Simple_handle_one_request fs (setup c r)) = reply code msg pre chunks).
Proof.
  destruct (send_head_shape c fs r) as (code & msg & pre & body & bH & Hp & Hs).
  destruct (Hs _ _ end_headers_ends) as (HG & HH).
  destruct (Hs _ _ Base_end_headers_ends) as (HG0 & HH0).
  rewrite app_nil_r in HG0, HH0.
  unfold handle_one_request, Simple_handle_one_request.
  change (command (setup c r)) with (req_command r).
  destruct (req_command r =? "GET") eqn:EG.
  { exists code, msg, pre, body. auto. }
  destruct (req_command r =? "HEAD") eqn:EH.
  { exists code, msg, pre, bH. auto. }
  destruct (req_command r =? "OPTIONS") eqn:EO.
  { destruct (do_OPTIONS_shape c r) as [Hw _].
    exists 200, "OK",
      [("Server", cls_version_string c); ("Date", cls_date_time_string c)], [].
    split; [base_keys_tac|]. split; [exact Hw|].
    apply String.eqb_eq in EO. congruence. }
  destruct c as [d v t f], r as [cmd p]. unfold setup. cbn [req_command req_path
    cls_directory cls_version_string cls_date_time_string cls_error_message_format].
  destruct (send_error_shape 501 ("Unsupported method (" ++ Py.repr cmd ++ ")") cmd p d v t f [])
    as (pre' & body' & Hp' & Hs'); [now right|].
  exists 501, ("Unsupported method (" ++ Py.repr cmd ++ ")"), pre', body'.
  split; [exact Hp'|]. split; [exact (Hs' _ _ end_headers_ends)|]. intros _.
  rewrite (Hs' _ _ Base_end_headers_ends). now rewrite app_nil_r.
Qed.

(** Every reply parses, and its headers are those of the base classes
    followed by those of the hook. *)
Lemma serve_response c fs r :
  exists code msg pre chunks,
    Forall base_key pre /\
    serve c fs r =
      Some (mkResponse code msg (pre ++ hook_headers (req_path r)) (join chunks)) /\
    (req_command r <> "OPTIONS" ->
     Simple_serve c fs r = Some (mkResponse code msg pre (join chunks))).
Proof.
  destruct (handle_shape c fs r) as (code & msg & pre & chunks & Hp & Hw & Hs).
  exists code, msg, pre, chunks. split; [exact Hp|].
  unfold serve, Simple_serve. rewrite Hw, read_reply. split; [reflexivity|].
  intros H. now rewrite (Hs H), read_reply.
Qed.

(* ================================================================== *)
(** ** Header look-up *)

Lemma get_all_app name a b :
  get_all name (a ++ b) = (get_all name a ++ get_all name b)%list.
Proof. unfold get_all. now rewrite filter_app, map_app. Qed.





(* ================================================================== *)
(** ** The suffix test *)






Lemma do_GET_file X E c fs target ctype content lm :
  ends_with X E ->
  fs (cls_directory c) target = RegularFile ctype content lm ->
  wfile (do_GET E fs (setup c (mkRequest "GET" target))) =
    reply 200 "OK"
      ([("Server", cls_version_string c); ("Date", cls_date_time_string c);
        ("Content-type", ctype);
        ("Content-Length", Py.str (String.length content));
        ("Last-Modified", lm)] ++ X target) [content].
Proof.
  intros HE Hfs. destruct c as [d v t f].
  unfold do_GET, send_head, setup.
  cbn [directory path req_command req_path cls_directory cls_version_string
       cls_date_time_string cls_error_message_format] in *.
  rewrite Hfs. run_with HE.
Qed.

(* ================================================================== *)
(** ** Content types *)







(** C7. For a request target that ends in none of [.js], [.jsx], [.json],
    the hook buffers the three CORS headers after what is buffered already
    and then does what the base class does: it sends no Content-Type of its
    own.  So, for a command other than OPTIONS, the reply is the reply of
    the plain static-file handler with the three CORS headers appended. *)
Theorem other_suffix_only_cors (target : string) :
  Py.endswith target ".js" = false ->
  Py.endswith target ".jsx" = false ->
  Py.endswith target ".json" = false ->
  (forall self, path self = target ->
     end_headers self =
       Base_end_headers (set_buffer (_headers_buffer self ++ map hdr CORS) self)) /\
  (forall c fs cmd, cmd <> "OPTIONS" ->
     exists plain,
       Simple_serve c fs (mkRequest cmd target) = Some plain /\
       serve c fs (mkRequest cmd target) =
         Some (mkResponse (status plain) (reason plain)
                 (headers plain ++ CORS) (body plain))).
Proof.
  intros Hjs Hjsx Hjson.
  assert (Hh : hook_headers target = CORS).
  { unfold hook_headers. rewrite Hjs, Hjsx, Hjson. apply app_nil_r. }
  split.
  - intros self <-. rewrite end_headers_ends, Hh.
    destruct self as [cmd p d v t f b w cc l].
    cbv -[app map]. list_norm. reflexivity.
  - intros c fs cmd Hcmd.
    destruct (serve_response c fs (mkRequest cmd target))
      as (code & msg & pre & chunks & _ & Hs & Hs0).
    eexists. split; [apply Hs0, Hcmd|].
    rewrite Hs. cbn [req_path status reason headers body]. now rewrite Hh.
Qed.

Lemma other_suffix_only_cors_witness :
  (forall self, path self = "/index.html" ->
     end_headers self =
       Base_end_headers (set_buffer (_headers_buffer self ++ map hdr CORS) self)) /\
  (forall c fs cmd, cmd <> "OPTIONS" ->
     exists plain,
       Simple_serve c fs (mkRequest cmd "/index.html") = Some plain /\
       serve c fs (mkRequest cmd "/index.html") =
         Some (mkResponse (status plain) (reason plain)
                 (headers plain ++ CORS) (body plain))).
Proof.
  apply (other_suffix_only_cors "/index.html"); reflexivity.
Defined.


(** C10. A GET of an existing file whose target ends in [.js], [.jsx] or
    [.json] is answered with status 200, the file as body, and two
    Content-Type header lines: first the type guessed by the base class,
    then the type the hook sends. *)
Theorem two_content_type_lines (c : handler_class) (fs : filesystem)
    (target ctype content lm : string) :
  fs (cls_directory c) target = RegularFile ctype content lm ->
  Py.endswith target ".js" = true \/ Py.endswith target ".jsx" = true \/
    Py.endswith target ".json" = true ->
  exists resp,
    serve c fs (mkRequest "GET" target) = Some resp /\
    status resp = 200 /\
    body resp = content /\
    get_all "Content-Type" (headers resp) =
      [ctype;
       if Py.endswith target ".js" || Py.endswith target ".jsx"
       then JS_TYPE else JSON_TYPE].
Proof.
  intros Hfs Hsuf.
  unfold serve.
  change (handle_one_request fs (setup c (mkRequest "GET" target)))
    with (do_GET end_headers fs (setup c (mkRequest "GET" target))).
  rewrite (do_GET_file _ _ c fs target ctype content lm end_headers_ends Hfs).
  rewrite read_reply. eexists. split; [reflexivity|].
  cbn [status body headers join fold_right].
  split; [reflexivity|]. split; [apply append_empty_r|].
  rewrite get_all_app. unfold hook_headers.
  destruct (Py.endswith target ".js" || Py.endswith target ".jsx") eqn:Hj.
  - reflexivity.
  - apply orb_false_iff in Hj. destruct Hj as [Hjs Hjsx].
    destruct Hsuf as [H|[H|H]]; try congruence.
    rewrite H. reflexivity.
Qed.

Lemma two_content_type_lines_witness :
  exists resp,
    serve sample_class sample_files (mkRequest "GET" "/app.js") = Some resp /\
    status resp = 200 /\
    body resp = "export {};" /\
    get_all "Content-Type" (headers resp) = ["text/javascript"; JS_TYPE].
Proof.
  apply (two_content_type_lines sample_class sample_files "/app.js"
           "text/javascript" "export {};" "Tue, 03 Nov 2026 09:00:00 GMT").
  - reflexivity.
  - left; reflexivity.
Defined.

(* ================================================================== *)
(** ** The process *)

Ltac crunch :=
  unfold do_GET, do_HEAD, send_head, send_error, do_OPTIONS;
  cbv zeta; cbv iota beta delta [responses];
  rewrite end_headers_ends; cbv -[app map hook_headers];
  repeat match goal with |- context [if ?c then _ else _] => destruct c end;
  reflexivity.

(** The only file-system look-up of a request is the one [send_head] makes,
    under the directory of the handler. *)
Lemma handle_fs_log c fs r :
  fs_log (handle_one_request fs (setup c r)) =
    if serves_file (req_command r) then [(cls_directory c, req_path r)] else [].
Proof.
  destruct c as [d v t f], r as [cmd p].
  unfold handle_one_request, setup, serves_file.
  cbn [command directory path req_command req_path cls_directory
       cls_version_string cls_date_time_string cls_error_message_format].
  destruct (cmd =? "GET"); [|destruct (cmd =? "HEAD"); [|destruct (cmd =? "OPTIONS")]];
    cbn [orb].
  - unfold do_GET, send_head.
    cbn [command directory path].
    destruct (fs d p) as [url|[enc|]| | |ctype content lm]; crunch.
  - unfold do_HEAD, send_head.
    cbn [command directory path].
    destruct (fs d p) as [url|[enc|]| | |ctype content lm]; crunch.
  - crunch.
  - crunch.
Qed.

Lemma serve_forever_frame m d events p :
  let q := proc (serve_forever m (MyHTTPRequestHandler m (Some d)) events p) in
  same_server p q /\
  exists calls,
    fs_calls q = (fs_calls p ++ calls)%list /\
    Forall (fun call => fst call = d) calls.
Proof.
  revert p. induction events as [|[[r|d']|] events IH]; intros p; cbn [serve_forever proc].
  - split; [repeat split|]. exists []. now rewrite app_nil_r.
  - destruct (IH (add_reply
        (handle_one_request (files m) (MyHTTPRequestHandler m (Some d) p r)) p))
      as (Hs & calls & Hc & Hd).
    split; [exact Hs|].
    unfold MyHTTPRequestHandler in Hc. cbn [add_reply fs_calls] in Hc.
    rewrite handle_fs_log in Hc. cbn [cls_directory] in Hc.
    rewrite <- app_assoc in Hc.
    eexists. split; [exact Hc|].
    apply Forall_app. split; [|exact Hd].
    destruct (serves_file (req_command r)); repeat constructor.
  - destruct (IH (set_cwd d' p)) as (Hs & calls & Hc & Hd).
    split; [exact Hs|]. exists calls. now split.
  - split; [repeat split|]. exists []. now rewrite app_nil_r.
Qed.

(** The loop does not return; an interrupt makes it raise. *)
Lemma serve_forever_interrupt m Handler inputs rest p :
  exists q,
    serve_forever m Handler (map Input inputs ++ SIGINT :: rest) p =
      Raised KeyboardInterrupt q.
Proof.
  revert p. induction inputs as [|[r|d] inputs IH]; intros p; cbn.
  - now exists p.
  - apply IH.
  - apply IH.
Qed.

(** C5. If the bind on port 8000 fails, the process ends with exit status
    1 and the error on standard error; the socket is closed, bind was tried
    once, and nothing was printed or served. *)
Theorem bind_failure_is_fatal (m : machine) (events : list event) (p : process)
    (strerror : string) :
  bind_error m PORT = Some strerror ->
  let q := main m events p in
  exit_status q = Some 1 /\
  stderr q = (stderr p ++
    ["Traceback (most recent call last):"; ("OSError: " ++ strerror)%string])%list /\
  socket q = Closed /\
  bind_calls q = S (bind_calls p) /\
  stdout q = stdout p /\
  replies q = replies p.
Proof.
  intros Hb. unfold main, TCPServer. cbn [snd]. rewrite Hb.
  cbn. repeat split.
Qed.

Lemma bind_failure_is_fatal_witness :
  let q := main (sample_machine false) [Input (Connection (mkRequest "GET" "/index.html"))]
             sample_process in
  exit_status q = Some 1 /\
  stderr q = ["Traceback (most recent call last):";
              "OSError: [Errno 98] Address already in use"] /\
  socket q = Closed /\
  bind_calls q = 1 /\
  stdout q = [] /\
  replies q = [].
Proof.
  apply (bind_failure_is_fatal (sample_machine false)
           [Input (Connection (mkRequest "GET" "/index.html"))] sample_process
           "[Errno 98] Address already in use").
  reflexivity.
Defined.

(** C6. With the server bound and serving, an interrupt makes the serving
    loop raise KeyboardInterrupt; the program prints the acknowledgment
    after the banner, the socket is closed, and the process ends with exit
    status 0 and nothing on standard error. *)
Theorem interrupt_stops_cleanly (m : machine) (inputs : list input)
    (rest : list event) (p : process) :
  bind_error m PORT = None ->
  let events := (map Input inputs ++ SIGINT :: rest)%list in
  let q := main m events p in
  (forall Handler httpd, exists httpd',
     serve_forever m Handler events httpd = Raised KeyboardInterrupt httpd') /\
  socket q = Closed /\
  stdout q = (stdout p ++ [banner PORT; stopped])%list /\
  exit_status q = Some 0 /\
  stderr q = stderr p.
Proof.
  intros Hb events q.
  split; [intros Handler httpd; apply serve_forever_interrupt|].
  subst q. unfold main, TCPServer. cbn [snd]. rewrite Hb.
  set (httpd := print (banner PORT) _).
  set (Handler := MyHTTPRequestHandler m (Some (cwd p))).
  destruct (serve_forever_interrupt m Handler inputs rest httpd) as [q Hq].
  pose proof (serve_forever_frame m (cwd p) events httpd) as [Hs _].
  fold Handler in Hs. subst events. rewrite Hq in *. cbn [proc] in Hs.
  destruct Hs as (_ & _ & _ & Hout & Herr & _).
  cbn. rewrite Hout, Herr. subst httpd. cbn.
  rewrite <- app_assoc, app_nil_r. repeat split.
Qed.

Lemma interrupt_stops_cleanly_witness :
  let events := (map Input [Connection (mkRequest "GET" "/index.html")] ++ [SIGINT])%list in
  let q := main (sample_machine true) events sample_process in
  (forall Handler httpd, exists httpd',
     serve_forever (sample_machine true) Handler events httpd =
       Raised KeyboardInterrupt httpd') /\
  socket q = Closed /\
  stdout q = [banner PORT; stopped] /\
  exit_status q = Some 0 /\
  stderr q = [].
Proof.
  apply (interrupt_stops_cleanly (sample_machine true)
           [Connection (mkRequest "GET" "/index.html")] [] sample_process).
  reflexivity.
Defined.

(** C8. Whatever the arguments of the process, the events it receives and
    the changes of its working directory while it runs, the server address
    is the empty host and port 8000, and every file-system look-up of a
    request is made under the working directory the process started in. *)
Theorem port_and_root_are_fixed (m : machine) (events : list event) (p : process) :
  let q := main m events p in
  PORT = 8000 /\
  server_address q = Some ("", PORT) /\
  exists calls,
    fs_calls q = (fs_calls p ++ calls)%list /\
    Forall (fun call => fst call = cwd p) calls.
Proof.
  cbv zeta. split; [reflexivity|].
  unfold main, TCPServer. cbn [snd].
  destruct (bind_error m PORT) as [strerror|].
  - cbn. split; [reflexivity|]. exists []. now rewrite app_nil_r.
  - set (httpd := print (banner PORT) _).
    pose proof (serve_forever_frame m (cwd p) events httpd) as (Hs & calls & Hc & Hd).
    destruct Hs as (Ha & _).
    destruct (serve_forever m (MyHTTPRequestHandler m (Some (cwd p))) events httpd)
      as [q|[s|] q|q]; cbn [proc] in *; cbn; rewrite ?Ha, ?Hc;
      (split; [reflexivity|]); exists calls; now split.
Qed.

(* ================================================================== *)
(** ** Further properties of the handler and of the process *)

(** The error reply of the base class, with what [end_headers] adds. *)
Lemma send_error_reply X E code m cmd p d v t f l :
  ends_with X E -> code = 404 \/ code = 501 ->
  wfile (send_error E code (Some m) (mkHandler cmd p d v t f [] [] true l)) =
    reply code m
      ([("Server", v); ("Date", t); ("Connection", "close");
        ("Content-Type", "text/html;charset=utf-8");
        ("Content-Length", Py.str (String.length (f code m (explain code))))]
         ++ X p)
      (if negb (cmd =? "HEAD") && negb (f code m (explain code) =? "")
       then [f code m (explain code)] else []).
Proof.
  intros HE Hc.
  destruct Hc; subst code.
  all: unfold send_error; cbv zeta; cbv iota beta delta [responses]; rewrite HE;
    cbv -[app map];
    match goal with |- context [if ?c then _ else _] => destruct c end;
    list_norm; reflexivity.
Qed.




(** GET and HEAD of one target: the same status line and headers, and no
    body for HEAD. *)
Lemma send_head_pair c fs target :
  exists code msg pre body,
    forall X E, ends_with X E ->
      wfile (do_GET E fs (setup c (mkRequest "GET" target))) =
        reply code msg (pre ++ X target) body /\
      wfile (do_HEAD E fs (setup c (mkRequest "HEAD" target))) =
        reply code msg (pre ++ X target) [].
Proof.
  destruct c as [d v t f].
  unfold do_GET, do_HEAD, send_head, setup.
  cbn [directory path req_command req_path cls_directory cls_version_string
       cls_date_time_string cls_error_message_format].
  unfold set_fs_log.
  cbn [command path directory version_string date_time_string
       error_message_format _headers_buffer wfile close_connection fs_log app].
  destruct (fs d target) as [url|[enc|]| | |ctype content lm].
  - exists 301, "Moved Permanently",
      [("Server", v); ("Date", t); ("Location", url); ("Content-Length", "0")], [].
    intros X E HE. split; run_with HE.
  - exists 200, "OK",
      [("Server", v); ("Date", t); ("Content-type", "text/html; charset=utf-8");
       ("Content-Length", Py.str (String.length enc))], [enc].
    intros X E HE. split; run_with HE.
  - eexists 404, _, _, _. intros X E HE. cbv iota beta. cbn [snd].
    rewrite !(send_error_reply X E 404) by (auto; now left).
    split; reflexivity.
  - eexists 404, _, _, _. intros X E HE. cbv iota beta. cbn [snd].
    rewrite !(send_error_reply X E 404) by (auto; now left).
    split; reflexivity.
  - exists 304, "Not Modified", [("Server", v); ("Date", t)], [].
    intros X E HE. split; run_with HE.
  - exists 200, "OK",
      [("Server", v); ("Date", t); ("Content-type", ctype);
       ("Content-Length", Py.str (String.length content)); ("Last-Modified", lm)],
      [content].
    intros X E HE. split; run_with HE.
Qed.

(** X3. The hook does not look at the command: HEAD of a target is
    answered with the status line and headers of GET of that target (CORS
    and Content-Type of the hook included) and an empty body. *)
Theorem head_is_get_without_body (c : handler_class) (fs : filesystem)
    (target : string) :
  exists g h,
    serve c fs (mkRequest "GET" target) = Some g /\
    serve c fs (mkRequest "HEAD" target) = Some h /\
    status h = status g /\ reason h = reason g /\
    headers h = headers g /\ body h = "".
Proof.
  destruct (send_head_pair c fs target) as (code & msg & pre & body & H).
  destruct (H _ _ end_headers_ends) as [HG HH].
  unfold serve.
  change (handle_one_request fs (setup c (mkRequest "GET" target)))
    with (do_GET end_headers fs (setup c (mkRequest "GET" target))).
  change (handle_one_request fs (setup c (mkRequest "HEAD" target)))
    with (do_HEAD end_headers fs (setup c (mkRequest "HEAD" target))).
  rewrite HG, HH, !read_reply.
  eexists _, _. repeat split.
Qed.


(** X5. The hook does not look at the status: the 404 reply for a missing
    target that ends in [.js] or [.jsx] has the Content-Type of the HTML
    error page followed by the JavaScript type. *)
Theorem missing_module_is_html_labelled_js (c : handler_class) (fs : filesystem)
    (target : string) :
  fs (cls_directory c) target = NoSuchFile ->
  Py.endswith target ".js" = true \/ Py.endswith target ".jsx" = true ->
  exists resp,
    serve c fs (mkRequest "GET" target) = Some resp /\
    status resp = 404 /\
    get_all "Content-Type" (headers resp) = ["text/html;charset=utf-8"; JS_TYPE].
Proof.
  intros Hfs Hsuf.
  unfold serve.
  change (handle_one_request fs (setup c (mkRequest "GET" target)))
    with (do_GET end_headers fs (setup c (mkRequest "GET" target))).
  destruct c as [d v t f].
  unfold do_GET, send_head, setup.
  cbn [directory path req_command req_path cls_directory cls_version_string
       cls_date_time_string cls_error_message_format] in *.
  rewrite Hfs. unfold set_fs_log.
  cbn [command path directory version_string date_time_string
       error_message_format _headers_buffer wfile close_connection fs_log app].
  cbv iota beta.
  rewrite (send_error_reply _ _ 404 _ "GET" target d v t f _ end_headers_ends)
    by now left.
  rewrite read_reply. eexists. split; [reflexivity|].
  cbn [status headers]. split; [reflexivity|].
  rewrite get_all_app. unfold hook_headers.
  assert (Hj : Py.endswith target ".js" || Py.endswith target ".jsx" = true).
  { apply orb_true_iff. exact Hsuf. }
  rewrite Hj. reflexivity.
Qed.

Lemma missing_module_is_html_labelled_js_witness :
  exists resp,
    serve sample_class sample_files (mkRequest "GET" "/src/main.jsx") = Some resp /\
    status resp = 404 /\
    get_all "Content-Type" (headers resp) = ["text/html;charset=utf-8"; JS_TYPE].
Proof.
  apply (missing_module_is_html_labelled_js sample_class sample_files "/src/main.jsx").
  - reflexivity.
  - right; reflexivity.
Defined.




Lemma serve_forever_running m d p0 inputs p :
  exists q,
    serve_forever m (MyHTTPRequestHandler m (Some d)) (map Input inputs) p =
      Running q /\
    replies q =
      (replies p ++
       map (fun r => wfile (handle_one_request (files m)
                              (MyHTTPRequestHandler m (Some d) p0 r)))
           (connections inputs))%list.
Proof.
  revert p. induction inputs as [|[r|d'] inputs IH]; intros p;
    cbn [map serve_forever connections].
  - exists p. split; [reflexivity|]. now rewrite app_nil_r.
  - destruct (IH (add_reply
        (handle_one_request (files m) (MyHTTPRequestHandler m (Some d) p r)) p))
      as (q & Hq & Hr).
    exists q. split; [exact Hq|]. rewrite Hr.
    cbn [add_reply replies]. now rewrite <- app_assoc.
  - destruct (IH (set_cwd d' p)) as (q & Hq & Hr).
    exists q. split; [exact Hq|]. exact Hr.
Qed.

(** X7. With the port bound and no interrupt the process keeps running:
    no exit status, the socket listening, the banner printed once, and one
    reply per connection, in order, each computed under the working
    directory of the start even after the directory has changed. *)
Theorem serving_until_interrupted (m : machine) (inputs : list input) (p : process) :
  bind_error m PORT = None ->
  let q := main m (map Input inputs) p in
  exit_status q = exit_status p /\
  socket q = Listening /\
  stdout q = (stdout p ++ [banner PORT])%list /\
  replies q =
    (replies p ++
     map (fun r => wfile (handle_one_request (files m)
                            (MyHTTPRequestHandler m (Some (cwd p)) p r)))
         (connections inputs))%list.
Proof.
  intros Hb. cbv zeta. unfold main, TCPServer. cbn [snd]. rewrite Hb.
  set (httpd := print (banner PORT) _).
  destruct (serve_forever_running m (cwd p) p inputs httpd) as (q & Hq & Hr).
  pose proof (serve_forever_frame m (cwd p) (map Input inputs) httpd) as [Hs _].
  rewrite Hq in *. cbn [proc] in Hs.
  destruct Hs as (_ & Hsock & _ & Hout & _ & Hex).
  cbn [interpreter_exit]. rewrite Hex, Hsock, Hout, Hr.
  subst httpd. cbn. repeat split.
Qed.

Lemma serving_until_interrupted_witness :
  let inputs := [Connection (mkRequest "GET" "/index.html"); Chdir "/tmp";
                 Connection (mkRequest "OPTIONS" "/src/main.jsx")] in
  let q := main (sample_machine true) (map Input inputs) sample_process in
  exit_status q = None /\
  socket q = Listening /\
  stdout q = [banner PORT] /\
  replies q =
    map (fun r => wfile (handle_one_request sample_files
                           (MyHTTPRequestHandler (sample_machine true) (Some "/srv")
                              sample_process r)))
        [mkRequest "GET" "/index.html"; mkRequest "OPTIONS" "/src/main.jsx"].
Proof.
  apply (serving_until_interrupted (sample_machine true)
           [Connection (mkRequest "GET" "/index.html"); Chdir "/tmp";
            Connection (mkRequest "OPTIONS" "/src/main.jsx")] sample_process).
  reflexivity.
Defined.



(** X9. In every run bind is called exactly once, and the process either
    has ended with the socket closed or is running with the socket
    listening: it never ends with the socket open. *)
Theorem bound_once_and_closed_on_exit (m : machine) (events : list event)
    (p : process) :
  let q := main m events p in
  bind_calls q = S (bind_calls p) /\
  ((socket q = Closed /\ exists code, exit_status q = Some code) \/
   (socket q = Listening /\ exit_status q = exit_status p)).
Proof.
  cbv zeta. unfold main, TCPServer. cbn [snd].
  destruct (bind_error m PORT) as [strerror|].
  - cbn. split; [reflexivity|]. left. split; [reflexivity|]. now exists 1.
  - set (httpd := print (banner PORT) _).
    pose proof (serve_forever_frame m (cwd p) events httpd) as [Hs _].
    destruct Hs as (_ & Hsock & Hbind & _ & _ & Hex).
    destruct (serve_forever m (MyHTTPRequestHandler m (Some (cwd p))) events httpd)
      as [q|[s|] q|q]; cbn [proc] in *; cbn; rewrite ?Hbind, ?Hsock, ?Hex;
      (split; [reflexivity|]);
      first [ left; split; [reflexivity|]; eexists; reflexivity
            | right; split; reflexivity ].
Qed.
